(** * agcounter: activity counts from raw accelerometer data

    A shallow embedding of [inst/extract.py] (the reference path
    [_extract_slow], the vectorised path [_resample], [_bpf_filter],
    [_trim_data], [_resample_10hz], [_sum_counts], [_extract], and the entry
    point [get_counts]) together with the properties of the count pipeline.

    Numbers.  The program computes on IEEE binary64 values.  Here a number is
    an exact rational: every arithmetic operation returns the exact result,
    kept in lowest terms ([Qred]) so that the model can be run.  Decimal
    literals of the source stand for their decimal value, [np.pi] for the
    binary64 value it denotes.  Round-off, infinities and NaN are outside the
    model.

    Arrays.  A two-dimensional [ndarray] carries its shape next to its rows,
    as numpy does: an array with no rows still has a column count.

    Exceptions.  A function that can raise returns a [result]. *)

From Stdlib Require Import ZArith QArith Qround Qabs Qreduction.
From Stdlib Require Import List Bool Lia Lqa.
Import ListNotations.

(** ** Exceptions *)

Inductive exn : Type :=
| AssertionError
| IndexError
| ValueError
| ZeroDivisionError.

Inductive result (A : Type) : Type :=
| Ok (a : A)
| Raise (e : exn).

Arguments Ok {A} a.
Arguments Raise {A} e.

Definition bind {A B : Type} (r : result A) (k : A -> result B) : result B :=
  match r with
  | Ok a => k a
  | Raise e => Raise e
  end.

Notation "x <- r ;; k" := (bind r (fun x => k))
  (at level 61, r at next level, right associativity).

(** ** Numbers *)

Open Scope Q_scope.

Abbreviation num := Q.

Definition nadd (x y : num) : num := Qred (x + y).
Definition nsub (x y : num) : num := Qred (x - y).
Definition nmul (x y : num) : num := Qred (x * y).
Definition ndiv (x y : num) : num := Qred (x / y).
Definition nneg (x : num) : num := Qred (- x).
Definition nabs (x : num) : num := Qabs x.

Definition nlt (x y : num) : bool :=
  match x ?= y with Lt => true | _ => false end.
Definition ngt (x y : num) : bool := nlt y x.
Definition nge (x y : num) : bool := negb (nlt x y).

(** [np.floor]: the result is still a (whole) number. *)
Definition nfloor (x : num) : num := inject_Z (Qfloor x).

(** [np.round]: to the nearest whole number, a tie to the even one. *)
Definition rint (x : num) : Z :=
  let f := Qfloor x in
  match ((x - inject_Z f) ?= (1 # 2))%Q with
  | Lt => f
  | Gt => (f + 1)%Z
  | Eq => if Z.even f then f else (f + 1)%Z
  end.
Definition nround (x : num) : num := inject_Z (rint x).

(** [.astype(int)]: truncation toward zero. *)
Definition to_int (x : num) : Z := Z.quot (Qnum x) (Zpos (Qden x)).

Definition nsum (l : list num) : num := fold_left nadd l 0.

(** [np.nanmean] of a window; no value is NaN here, so it is the mean. *)
Definition nanmean (l : list num) : num :=
  ndiv (nsum l) (inject_Z (Z.of_nat (length l))).

(** ** Arrays *)

Record ndarray (A : Type) : Type := Nd {
  shape0 : nat;
  shape1 : nat;
  data : list (list A)
}.

Arguments Nd {A} shape0 shape1 data.
Arguments shape0 {A} n.
Arguments shape1 {A} n.
Arguments data {A} n.

Definition wf_nd {A : Type} (a : ndarray A) : Prop :=
  length (data a) = shape0 a /\
  Forall (fun r => length r = shape1 a) (data a).

(** [np.zeros((m, n))] *)
Definition zeros (m n : nat) : ndarray num :=
  Nd m n (repeat (repeat 0 n) m).

(** [np.transpose(a)] *)
Definition transpose {A : Type} (d : A) (a : ndarray A) : ndarray A :=
  Nd (shape1 a) (shape0 a)
     (map (fun j => map (fun r => nth j r d) (data a)) (seq 0 (shape1 a))).

(** [a[0:len(a), [j]]]: column [j] as an array of one column. *)
Definition column (a : ndarray num) (j : nat) : result (ndarray num) :=
  if (j <? shape1 a)%nat
  then Ok (Nd (shape0 a) 1 (map (fun r => [nth j r 0]) (data a)))
  else Raise IndexError.

(** [a[i] = v] on one row; the callers keep [i] in range. *)
Fixpoint upd {A : Type} (l : list A) (i : nat) (v : A) : list A :=
  match l, i with
  | [], _ => []
  | _ :: t, O => v :: t
  | h :: t, S i' => h :: upd t i' v
  end.

(** [a[i]] with Python's reading of a negative index. *)
Definition getz (l : list num) (i : Z) : num :=
  if (i <? 0)%Z
  then nth (Z.to_nat (Z.of_nat (length l) + i)) l 0
  else nth (Z.to_nat i) l 0.

(** *** Slices

    [slice_indices] is Python's [slice(start, stop, step).indices(len)] and
    [py_range] is [range(start, stop, step)], for a step that is not zero. *)

Definition clamp_index (len lower upper i : Z) : Z :=
  if (i <? 0)%Z then Z.max (i + len) lower else Z.min i upper.

Definition slice_indices (start stop : option Z) (step len : Z) : Z * Z :=
  let lower := if (step <? 0)%Z then (-1)%Z else 0%Z in
  let upper := if (step <? 0)%Z then (len - 1)%Z else len in
  let s := match start with
           | None => if (step <? 0)%Z then upper else lower
           | Some i => clamp_index len lower upper i
           end in
  let e := match stop with
           | None => if (step <? 0)%Z then lower else upper
           | Some i => clamp_index len lower upper i
           end in
  (s, e).

Definition range_len (start stop step : Z) : nat :=
  if (0 <? step)%Z
  then (if (start <? stop)%Z
        then Z.to_nat ((stop - start - 1) / step + 1) else O)
  else (if (stop <? start)%Z
        then Z.to_nat ((start - stop - 1) / (- step) + 1) else O).

Definition py_range (start stop step : Z) : list Z :=
  map (fun k => (start + Z.of_nat k * step)%Z)
      (seq 0 (range_len start stop step)).

(** [l[start:stop:step]] *)
Definition py_slice {A : Type} (l : list A) (start stop : option Z)
    (step : Z) : list A :=
  let '(s, e) := slice_indices start stop step (Z.of_nat (length l)) in
  flat_map (fun i => match nth_error l (Z.to_nat i) with
                     | Some x => [x]
                     | None => []
                     end)
           (py_range s e step).

(** Element-wise binary operation on two rows of the same length. *)
Fixpoint map2 {A B C : Type} (f : A -> B -> C) (l : list A) (l' : list B)
    : list C :=
  match l, l' with
  | x :: t, y :: t' => f x y :: map2 f t t'
  | _, _ => []
  end.

(** ** Constants *)

(** Band-pass filter: input (feed-forward) coefficients. *)
Definition INPUT_COEFFICIENTS : list num :=
  [ -9341062898525 # 1000000000000000;
    -25470289659360 # 1000000000000000;
    -4235264826105 # 1000000000000000;
    44152415456420 # 1000000000000000;
    36493718347760 # 1000000000000000;
    -11893961934740 # 1000000000000000;
    -22917390623150 # 1000000000000000;
    -6788163862310 # 1000000000000000;
    0 ].

(** Band-pass filter: output (feedback) coefficients. *)
Definition OUTPUT_COEFFICIENTS : list num :=
  [ 1;
    -363367395910957 # 100000000000000;
    503689812757486 # 100000000000000;
    -309612247819666 # 100000000000000;
    50620507633883 # 100000000000000;
    32421701566682 # 100000000000000;
    -15685485875559 # 100000000000000;
    1949130205890 # 100000000000000;
    0 ].

(** [np.pi], the binary64 number 3.141592653589793. *)
Definition pi : num := 884279719003555 # 281474976710656.

(** [(3.0 / 4096.0) / (2.6 / 256.0) * 237.5] *)
Definition bpf_scale : num :=
  Qred (((3 # 4096) / ((26 # 10) / (256 # 1))) * (2375 # 10)).

Definition _factors (frequency : Z) : Z * Z :=
  if (frequency =? 30)%Z then (1, 1)%Z
  else if (frequency =? 40)%Z then (3, 4)%Z
  else if (frequency =? 50)%Z then (3, 5)%Z
  else if (frequency =? 60)%Z then (1, 2)%Z
  else if (frequency =? 70)%Z then (3, 7)%Z
  else if (frequency =? 80)%Z then (3, 8)%Z
  else if (frequency =? 90)%Z then (1, 3)%Z
  else if (frequency =? 100)%Z then (3, 10)%Z
  else (1, 1)%Z.

(** [frequency in [30, 60, 90]]: no low-pass stage. *)
Definition no_lpf (frequency : Z) : bool :=
  ((frequency =? 30) || (frequency =? 60) || (frequency =? 90))%Z.

Definition a_fp (upsample_factor : Z) : num :=
  ndiv pi (nadd pi (inject_Z (2 * upsample_factor))).
Definition b_fp (upsample_factor : Z) : num :=
  ndiv (nsub pi (inject_Z (2 * upsample_factor)))
       (nadd pi (inject_Z (2 * upsample_factor))).

(** ** The reference path: [_extract_slow]

    The function is one body in the source; its stages are named here in the
    order in which they run, on the single row [raw[0]] of the transposed
    input. *)

(** Lines 100-103: zero-stuffed copy of the row, one sample every
    [upsample_factor] places. *)
Definition slow_upsample (upsample_factor : Z) (raw0 : list num) : list num :=
  let n := Z.to_nat (Z.of_nat (length raw0) * upsample_factor) in
  fold_left
    (fun up i => upd up (Z.to_nat (Z.of_nat i * upsample_factor)) (nth i raw0 0))
    (seq 0 (length raw0)) (repeat 0 n).

(** Lines 111-133: the low-pass recurrence, skipped at 30, 60 and 90 Hz; the
    first place of the filtered row is then dropped. *)
Definition slow_lpf (frequency upsample_factor : Z) (raw0 upsample_data : list num)
    : list num :=
  if no_lpf frequency then upsample_data
  else
    let n := Z.to_nat (Z.of_nat (length raw0) * upsample_factor + 1) in
    let al := nmul (a_fp upsample_factor) (inject_Z upsample_factor) in
    let lpf :=
      fold_left
        (fun lpf i =>
           upd lpf i
             (nsub
                (nadd (nmul al (getz upsample_data (Z.of_nat i - 1)))
                      (nmul al (getz upsample_data (Z.of_nat i - 2))))
                (nmul (b_fp upsample_factor) (getz lpf (Z.of_nat i - 1)))))
        (seq 1 (n - 1)) (repeat 0 n) in
    py_slice lpf (Some 1%Z) None 1.

(** Lines 140-153: every [downsample_factor]-th value, then rounding to three
    decimals. *)
Definition slow_downsample (frequency upsample_factor downsample_factor : Z)
    (raw0 lpf_upsample_data : list num) : list num :=
  let down_sample_data :=
    if (frequency =? 30)%Z then raw0
    else
      let n := Z.to_nat
                 (Z.of_nat (length raw0) * upsample_factor / downsample_factor) in
      map (fun i => getz lpf_upsample_data (Z.of_nat i * downsample_factor))
          (seq 0 n) in
  map (fun x => ndiv (nround (nmul x 1000)) 1000) down_sample_data.

(** One turn of the shift-register filter (lines 163-169 and 172-178): the
    new registers and the output sample. *)
Definition dot (c r : list num) : num := nsum (map2 nmul c r).

Definition bpf_step (regs : list num * list num) (x : num)
    : (list num * list num) * num :=
  let '(shift_reg_in, shift_reg_out) := regs in
  let shift_reg_in := x :: firstn 8 shift_reg_in in
  let zeros_comp :=
    dot (firstn 8 INPUT_COEFFICIENTS) (firstn 8 shift_reg_in) in
  let poles_comp :=
    dot (firstn 7 (skipn 1 OUTPUT_COEFFICIENTS)) (firstn 7 shift_reg_out) in
  let y := nsub zeros_comp poles_comp in
  ((shift_reg_in, y :: firstn 8 shift_reg_out), y).

(** Lines 155-185: 1080 turns on the first sample charge the registers, then
    the row is filtered and scaled.  Reading the first sample of an empty row
    raises. *)
Definition slow_bpf (down_sample_data : list num) : result (list num) :=
  match down_sample_data with
  | [] => Raise IndexError
  | x0 :: _ =>
      let charged :=
        Nat.iter (180 * 6) (fun regs => fst (bpf_step regs x0))
                 (repeat 0 9, repeat 0 9) in
      let bpf_data :=
        snd (fold_left
               (fun acc x =>
                  let '(regs, out) := acc in
                  let '(regs', y) := bpf_step regs x in
                  (regs', out ++ [y]))
               down_sample_data (charged, [])) in
      Ok (map (nmul bpf_scale) bpf_data)
  end.

(** Lines 192-204 and 205-215: the threshold applied to one sample. *)
Definition slow_trim_lfe (v : num) : num :=
  let min_count := 1 in
  let max_count := 128 in
  if ngt (nabs v) max_count then max_count
  else if nlt (nabs v) min_count then 0
  else if nlt (nabs v) 4 then nsub (nfloor (nabs v)) 1
  else nfloor (nabs v).

Definition slow_trim_std (v : num) : num :=
  let min_count := 4 in
  let max_count := 128 in
  if ngt (nabs v) max_count then max_count
  else if nlt (nabs v) min_count then 0
  else nfloor (nabs v).

Definition slow_trim (lfe_select : bool) (bpf_data : list num) : list num :=
  map (fun i => if lfe_select
                then slow_trim_lfe (nth i bpf_data 0)
                else slow_trim_std (nth i bpf_data 0))
      (seq 0 (length bpf_data)).

(** Lines 222-227: floor of the mean of each full window of three. *)
Definition slow_10hz (trim_data : list num) : list num :=
  let n := Z.to_nat (Z.quot (Z.of_nat (length trim_data)) 3) in
  map (fun y =>
         nfloor (nanmean
                   (py_slice trim_data
                      (Some ((Z.of_nat y - 1) * 3)%Z)
                      (Some ((Z.of_nat y - 1) * 3 + 3)%Z) 1)))
      (seq 1 n).

(** Lines 232-240: floor of the sum of each full block of [epoch * 10]. *)
Definition slow_epochs (epoch : Z) (down_sample10_hz : list num)
    : result (list num) :=
  let block_size := (epoch * 10)%Z in
  if (block_size =? 0)%Z then Raise ZeroDivisionError
  else
    let n := Z.quot (Z.of_nat (length down_sample10_hz)) block_size in
    if (n <? 0)%Z then Raise ValueError
    else
      Ok (map (fun i =>
                 nfloor (nsum
                           (py_slice down_sample10_hz
                              (Some (Z.of_nat i * block_size)%Z)
                              (Some (Z.of_nat i * block_size + block_size)%Z)
                              1)))
              (seq 0 (Z.to_nat n))).

Definition _extract_slow (raw : ndarray num) (frequency : Z)
    (lfe_select : bool) (epoch : Z) : result (ndarray num) :=
  let '(upsample_factor, downsample_factor) := _factors frequency in
  let raw := transpose 0 raw in
  match data raw with
  | [] => Raise IndexError
  | raw0 :: _ =>
      let upsample_data := slow_upsample upsample_factor raw0 in
      let lpf_upsample_data :=
        slow_lpf frequency upsample_factor raw0 upsample_data in
      let down_sample_data :=
        slow_downsample frequency upsample_factor downsample_factor
                        raw0 lpf_upsample_data in
      bpf_data <- slow_bpf down_sample_data ;;
      let trim_data := slow_trim lfe_select bpf_data in
      let down_sample10_hz := slow_10hz trim_data in
      epoch_counts <- slow_epochs epoch down_sample10_hz ;;
      Ok (Nd 1 (length epoch_counts) [epoch_counts])
  end.

(** ** The vectorised path *)

(** Row-wise helpers for whole-array operations. *)
Definition nd_map {A B : Type} (f : A -> B) (a : ndarray A) : ndarray B :=
  Nd (shape0 a) (shape1 a) (map (map f) (data a)).

Definition slice_len (start stop : option Z) (step : Z) (len : nat) : nat :=
  let '(s, e) := slice_indices start stop step (Z.of_nat len) in
  range_len s e step.

(** [a[:, start:stop:step]] *)
Definition nd_slice {A : Type} (a : ndarray A) (start stop : option Z)
    (step : Z) : ndarray A :=
  Nd (shape0 a) (slice_len start stop step (shape1 a))
     (map (fun r => py_slice r start stop step) (data a)).

(** [l[start:] = vals], for [vals] as long as the slice. *)
Definition assign_from {A : Type} (l : list A) (start : Z) (vals : list A)
    : list A :=
  let '(s, _) := slice_indices (Some start) None 1 (Z.of_nat (length l)) in
  firstn (Z.to_nat s) l ++ vals.

(** [np.roll(a, 1)] with no axis: the array is flattened, rotated by one place
    and given its shape back. *)
Definition roll1 (flat : list num) : list num :=
  match flat with
  | [] => []
  | _ => last flat 0 :: removelast flat
  end.

Definition reshape (m n : nat) (flat : list num) : list (list num) :=
  map (fun r => firstn n (skipn (r * n) flat)) (seq 0 m).

Definition nd_roll1 (a : ndarray num) : ndarray num :=
  Nd (shape0 a) (shape1 a)
     (reshape (shape0 a) (shape1 a) (roll1 (concat (data a)))).

(** [np.cumsum(row)] *)
Fixpoint cumsum_from (acc : num) (l : list num) : list num :=
  match l with
  | [] => []
  | x :: t => let acc' := nadd acc x in acc' :: cumsum_from acc' t
  end.
Definition cumsum (l : list num) : list num := cumsum_from 0 l.

(** Lines 270-271: [upsample_data[:, ::upsample_factor] = raw] on one row of
    zeros. *)
Definition fast_upsample (upsample_factor : Z) (row : list num) : list num :=
  let n := (upsample_factor * Z.of_nat (length row))%Z in
  fold_left
    (fun up kv => upd up (Z.to_nat (fst kv)) (snd kv))
    (combine (py_range 0 n upsample_factor) row)
    (repeat 0 (Z.to_nat n)).

(** Lines 296-306: the low-pass stage on the whole array. *)
Definition fast_lpf (upsample_factor : Z) (upsample_data : ndarray num)
    : result (ndarray num) :=
  let al := nmul (a_fp upsample_factor) (inject_Z upsample_factor) in
  let rolled := nd_roll1 upsample_data in
  let summed :=
    map2 (fun r r' => map (nmul al) (map2 nadd r r'))
         (data upsample_data) (data rolled) in
  let stacked := map (fun r => 0 :: r) summed in
  match stacked with
  | [] => Raise IndexError
  | r0 :: _ =>
      let looped :=
        fold_left
          (fun d i =>
             map (fun r =>
                    upd r i (nadd (nth i r 0)
                                  (nmul (nneg (b_fp upsample_factor))
                                        (nth (i - 1) r 0))))
                 d)
          (seq 1 (length r0 - 1)) stacked in
      Ok (nd_slice (Nd (shape0 upsample_data) (S (shape1 upsample_data)) looped)
                   (Some 1%Z) None 1)
  end.

Definition _resample (raw : ndarray num) (frequency : Z)
    : result (ndarray num) :=
  let '(upsample_factor, downsample_factor) := _factors frequency in
  let raw := transpose 0 raw in
  let m := shape0 raw in
  let n := shape1 raw in
  let upsample_data :=
    Nd m (Z.to_nat (upsample_factor * Z.of_nat n))
       (map (fast_upsample upsample_factor) (data raw)) in
  upsample_data <-
    (if no_lpf frequency then Ok upsample_data
     else fast_lpf upsample_factor upsample_data) ;;
  let downsample_data :=
    if (frequency =? 30)%Z then raw
    else nd_slice upsample_data None None downsample_factor in
  Ok (nd_map (fun x => ndiv (nround (nmul x 1000)) 1000) downsample_data).

(** [scipy.signal.lfilter(b, a, x, zi=zi)] on one row, for [a[0] = 1]: the
    direct form II transposed recurrence of its documentation,
    [y = b[0]*x + z[0]], [z[i] = z[i+1] + b[i+1]*x - a[i+1]*y]. *)
Definition lfilter_step (b a z : list num) (x : num) : list num * num :=
  let y := nadd (nmul (nth 0 b 0) x) (nth 0 z 0) in
  (map (fun i =>
          nsub (nadd (nth (S i) z 0) (nmul (nth (S i) b 0) x))
               (nmul (nth (S i) a 0) y))
       (seq 0 (length z)),
   y).

Definition lfilter (b a : list num) (x zi : list num) : list num :=
  snd (fold_left
         (fun acc xk =>
            let '(z, out) := acc in
            let '(z', y) := lfilter_step b a z xk in
            (z', out ++ [y]))
         x (zi, [])).

(** [scipy.signal.lfilter_zi(b, a)], for [a[0] = 1]: the state of the filter
    in the steady state of its step response, that is the solution of
    [zi = A zi + B]: [zi[i]] is the sum of [b[j] - a[j] * (sum b / sum a)]
    over [j > i]. *)
Definition lfilter_zi (b a : list num) : list num :=
  let gain := ndiv (nsum b) (nsum a) in
  map (fun i =>
         nsum (map (fun j => nsub (nth j b 0) (nmul (nth j a 0) gain))
                   (seq (S i) (length b - S i))))
      (seq 0 (length b - 1)).

(** Lines 350-373.  [downsample_data[:, 0]] raises on an array whose rows are
    empty. *)
Definition _bpf_filter (downsample_data : ndarray num) : result (ndarray num) :=
  let a := INPUT_COEFFICIENTS in
  let b := OUTPUT_COEFFICIENTS in
  let zi := lfilter_zi a b in
  if (shape1 downsample_data =? 0)%nat then Raise IndexError
  else
    let bpf_data :=
      map (fun r => lfilter a b r (map (fun z => nmul z (nth 0 r 0)) zi))
          (data downsample_data) in
    Ok (Nd (shape0 downsample_data) (shape1 downsample_data)
           (map (map (nmul bpf_scale)) bpf_data)).

(** Lines 398-417, one sample at a time: each statement of the source is a
    masked assignment over the whole array. *)
Definition fast_trim_lfe (v : num) : num :=
  let min_count := 1 in
  let max_count := 128 in
  let t := nabs v in
  let t := if nlt t min_count && nge t 4 then 0 else t in
  let t := if ngt t max_count then max_count else t in
  let mask := nlt t 4 && nge t min_count in
  let t := if mask then nsub (nabs t) 1 else t in
  nfloor t.

Definition fast_trim_std (v : num) : num :=
  let min_count := 4 in
  let max_count := 128 in
  let t := nabs v in
  let t := if nlt t min_count then 0 else t in
  let t := if ngt t max_count then max_count else t in
  nfloor t.

Definition _trim_data (bpf_data : ndarray num) (lfe_select : bool)
    : ndarray num :=
  if lfe_select then nd_map fast_trim_lfe bpf_data
  else nd_map fast_trim_std bpf_data.

(** Lines 440-443. *)
Definition resample_10hz_row (trim_row : list num) : list num :=
  let downsample_10hz := cumsum trim_row in
  let downsample_10hz :=
    assign_from downsample_10hz 3
      (map2 nsub (py_slice downsample_10hz (Some 3%Z) None 1)
                 (py_slice downsample_10hz None (Some (-3)%Z) 1)) in
  map (fun x => nfloor (ndiv x 3))
      (py_slice downsample_10hz (Some (3 - 1)%Z) None 3).

Definition _resample_10hz (trim_data : ndarray num) : ndarray num :=
  Nd (shape0 trim_data)
     (slice_len (Some (3 - 1)%Z) None 3 (shape1 trim_data))
     (map resample_10hz_row (data trim_data)).

(** Lines 469-476.  A block size of zero makes the last slice (step zero), or
    already the subtraction, raise. *)
Definition sum_counts_row (block_size : Z) (row : list num) : list num :=
  let epoch_counts := cumsum row in
  let epoch_counts :=
    assign_from epoch_counts block_size
      (map2 nsub (py_slice epoch_counts (Some block_size) None 1)
                 (py_slice epoch_counts None (Some (- block_size)%Z) 1)) in
  map nfloor (py_slice epoch_counts (Some (block_size - 1)%Z) None block_size).

Definition _sum_counts (downsample_10hz : ndarray num) (epoch_seconds : Z)
    : result (ndarray num) :=
  let block_size := (epoch_seconds * 10)%Z in
  if (block_size =? 0)%Z then Raise ValueError
  else
    Ok (Nd (shape0 downsample_10hz)
           (slice_len (Some (block_size - 1)%Z) None block_size
                      (shape1 downsample_10hz))
           (map (sum_counts_row block_size) (data downsample_10hz))).

Definition _extract (raw : ndarray num) (frequency : Z) (lfe_select : bool)
    (epoch_seconds : Z) : result (ndarray num) :=
  downsample_data <- _resample raw frequency ;;
  bpf_data <- _bpf_filter downsample_data ;;
  let trim_data := _trim_data bpf_data lfe_select in
  let downsample_10hz := _resample_10hz trim_data in
  _sum_counts downsample_10hz epoch_seconds.

(** ** The entry point *)

(** [freq in range(30, 101, 10)] *)
Definition supported (freq : Z) : bool :=
  ((30 <=? freq) && (freq <? 101) && ((freq - 30) mod 10 =? 0))%Z.

(** [np.concatenate((x, y, z), 1)] *)
Definition concatenate1 (x y z : ndarray num) : result (ndarray num) :=
  if ((shape0 x =? shape0 y) && (shape0 y =? shape0 z))%nat
  then Ok (Nd (shape0 x) (shape1 x + shape1 y + shape1 z)
              (map2 (fun rx ryz => rx ++ ryz) (data x)
                    (map2 (fun ry rz => ry ++ rz) (data y) (data z))))
  else Raise ValueError.

Definition get_counts (raw : ndarray num) (freq epoch : Z) (fast : bool)
    : result (ndarray Z) :=
  if negb (supported freq) then Raise AssertionError
  else
    counts <-
      (if fast then
         counts <- _extract raw freq false epoch ;;
         Ok (transpose 0 counts)
       else
         x_raw <- column raw 0 ;;
         y_raw <- column raw 1 ;;
         z_raw <- column raw 2 ;;
         epoch_counts_x <- _extract_slow x_raw freq false epoch ;;
         epoch_counts_y <- _extract_slow y_raw freq false epoch ;;
         epoch_counts_z <- _extract_slow z_raw freq false epoch ;;
         concatenate1 (transpose 0 epoch_counts_x)
                      (transpose 0 epoch_counts_y)
                      (transpose 0 epoch_counts_z)) ;;
    Ok (nd_map to_int counts).

(** ** Vocabulary of the properties *)

(** The sum of a row, as a plain rational. *)
Definition Qsum (l : list Q) : Q := fold_right Qplus 0 l.

(** The full windows of [K] samples of a row, in order; what is left after
    the last full window is not in any of them. *)
Definition windows (K : nat) (l : list num) : list (list num) :=
  map (fun i => firstn K (skipn (i * K) l)) (seq 0 (length l / K)).

(** A whole number between two bounds. *)
Definition whole_range (lo hi : Z) (x : num) : Prop :=
  exists z : Z, x = inject_Z z /\ (lo <= z <= hi)%Z.

(** Rounding to three decimals, as both paths write it. *)
Definition round3 (x : num) : num := ndiv (nround (nmul x 1000)) 1000.

(** The first three columns of an array. *)
Definition first3 (a : ndarray num) : ndarray num :=
  Nd (shape0 a) 3 (map (firstn 3) (data a)).

(** Recordings used as examples: 59 samples of rest, an empty series, a
    four-column and a two-column recording of rest, and 27 samples of rest
    followed by three samples of 2 on the first axis. *)
Definition rest_59 : ndarray num := zeros 59 3.
Definition empty_raw : ndarray num := Nd 0 3 [].
Definition rest_4_columns : ndarray num := zeros 30 4.
Definition rest_2_columns : ndarray num := zeros 30 2.
Definition step_raw : ndarray num :=
  Nd 30 3 (repeat [0; 0; 0] 27 ++ repeat [2; 0; 0] 3).

(** * Properties *)

(** ** Numbers *)

Lemma nadd_eq (x y : num) : nadd x y == x + y.
Proof. apply Qred_correct. Qed.

Lemma nsub_eq (x y : num) : nsub x y == x - y.
Proof. apply Qred_correct. Qed.

Lemma nmul_eq (x y : num) : nmul x y == x * y.
Proof. apply Qred_correct. Qed.

Lemma ndiv_eq (x y : num) : ndiv x y == x / y.
Proof. apply Qred_correct. Qed.

Lemma nlt_true (x y : num) : nlt x y = true <-> x < y.
Proof.
  unfold nlt. rewrite Qlt_alt. destruct (x ?= y); split; congruence.
Qed.

Lemma nlt_false (x y : num) : nlt x y = false <-> y <= x.
Proof.
  unfold nlt. rewrite Qle_alt, <- (Qcompare_antisym y x).
  destruct (y ?= x); simpl; split; congruence.
Qed.

Lemma Qfloor_unique (x : Q) (z : Z) :
  inject_Z z <= x -> x < inject_Z (z + 1) -> Qfloor x = z.
Proof.
  intros Hlo Hhi.
  pose proof (Qfloor_le x) as Hfl. pose proof (Qlt_floor x) as Hfu.
  assert (H1 : inject_Z (Qfloor x) < inject_Z (z + 1)) by lra.
  assert (H2 : inject_Z z < inject_Z (Qfloor x + 1)) by lra.
  rewrite <- Zlt_Qlt in H1, H2. lia.
Qed.

Lemma Qfloor_sub1 (x : Q) : Qfloor (x - 1) = (Qfloor x - 1)%Z.
Proof.
  apply Qfloor_unique.
  - pose proof (Qfloor_le x). unfold Z.sub.
    rewrite inject_Z_plus, inject_Z_opp. change (inject_Z 1) with 1. lra.
  - pose proof (Qlt_floor x) as H. rewrite inject_Z_plus in H.
    replace (Qfloor x - 1 + 1)%Z with (Qfloor x) by lia.
    change (inject_Z 1) with 1 in H. lra.
Qed.

Lemma Qred_inject_Z (z : Z) : Qred (inject_Z z) = inject_Z z.
Proof.
  unfold inject_Z, Qred.
  pose proof (Z.ggcd_gcd z 1) as Hg. pose proof (Z.ggcd_correct_divisors z 1) as Hd.
  destruct (Z.ggcd z 1) as [g [a b]]. simpl in *.
  rewrite Z.gcd_1_r in Hg. subst g. destruct Hd as [Ha Hb].
  rewrite Z.mul_1_l in Ha, Hb. subst a. subst b. reflexivity.
Qed.

Lemma nsub_whole (z : Z) : nsub (inject_Z z) 1 = inject_Z (z - 1).
Proof.
  unfold nsub. rewrite <- (Qred_inject_Z (z - 1)). apply Qred_complete.
  unfold Z.sub. rewrite inject_Z_plus, inject_Z_opp. reflexivity.
Qed.

Lemma nfloor_comp (x y : num) : x == y -> nfloor x = nfloor y.
Proof. intros H. unfold nfloor. now rewrite (Qfloor_comp _ _ H). Qed.

(** ** Slices *)

Lemma flat_map_in_range {A : Type} (d : A) (l : list A) (idx : list Z) :
  Forall (fun i => (0 <= i < Z.of_nat (length l))%Z) idx ->
  flat_map (fun i => match nth_error l (Z.to_nat i) with
                     | Some x => [x]
                     | None => []
                     end) idx
  = map (fun i => nth (Z.to_nat i) l d) idx.
Proof.
  induction 1 as [|i idx Hi _ IH]; simpl; [reflexivity|].
  rewrite IH.
  destruct (nth_error l (Z.to_nat i)) eqn:E.
  - simpl. f_equal. symmetry. now apply nth_error_nth.
  - apply nth_error_None in E. lia.
Qed.

Lemma map_nth_seq {A : Type} (d : A) (l : list A) (s c : nat) :
  (s + c <= length l)%nat ->
  map (fun k => nth (s + k) l d) (seq 0 c) = firstn c (skipn s l).
Proof.
  revert s l. induction c as [|c IH]; intros s l H; simpl; [reflexivity|].
  destruct (skipn s l) as [|x t] eqn:E.
  - pose proof (length_skipn s l) as Hl. rewrite E in Hl. simpl in Hl. lia.
  - rewrite Nat.add_0_r. f_equal.
    + rewrite <- (firstn_skipn s l) at 1. rewrite E.
      rewrite app_nth2; rewrite length_firstn; [|lia].
      replace (s - Nat.min s (length l))%nat with O by lia. reflexivity.
    + rewrite <- seq_shift, map_map.
      assert (Et : t = skipn (S s) l).
      { replace (S s) with (1 + s)%nat by lia. rewrite <- skipn_skipn, E. reflexivity. }
      rewrite Et. rewrite <- IH by lia.
      apply map_ext. intros k. f_equal. lia.
Qed.

Lemma py_range_step1 (s e : Z) :
  py_range s e 1 = map (fun k => (s + Z.of_nat k)%Z) (seq 0 (Z.to_nat (e - s))).
Proof.
  unfold py_range, range_len. simpl (0 <? 1)%Z. cbv iota.
  destruct (s <? e)%Z eqn:E.
  - apply Z.ltb_lt in E. rewrite Z.div_1_r.
    replace (e - s - 1 + 1)%Z with (e - s)%Z by lia.
    apply map_ext. intros k. lia.
  - apply Z.ltb_ge in E. replace (Z.to_nat (e - s)) with O by lia. reflexivity.
Qed.

(** A slice of step one between two places of the row. *)
Lemma slice_between {A : Type} (l : list A) (s e : Z) :
  (0 <= s)%Z -> (e <= Z.of_nat (length l))%Z ->
  flat_map (fun i => match nth_error l (Z.to_nat i) with
                     | Some x => [x]
                     | None => []
                     end) (py_range s e 1)
  = firstn (Z.to_nat (e - s)) (skipn (Z.to_nat s) l).
Proof.
  intros Hs He.
  destruct (Z_le_gt_dec e s) as [Hes|Hes].
  { rewrite py_range_step1.
    replace (Z.to_nat (e - s)) with O by lia. reflexivity. }
  destruct l as [|d l'] eqn:El; [simpl in He; lia|].
  rewrite <- El in *. clear El l'.
  rewrite (flat_map_in_range d).
  - rewrite py_range_step1, map_map.
    rewrite <- map_nth_seq with (d := d) by lia.
    apply map_ext. intros k. f_equal. lia.
  - rewrite py_range_step1. apply Forall_forall. intros i Hi.
    apply in_map_iff in Hi. destruct Hi as [k [<- Hk]].
    apply in_seq in Hk. lia.
Qed.

Lemma py_slice_from {A : Type} (l : list A) (k : nat) :
  py_slice l (Some (Z.of_nat k)) None 1 = skipn k l.
Proof.
  unfold py_slice, slice_indices, clamp_index. cbv zeta.
  change (1 <? 0)%Z with false. cbv iota.
  replace (Z.of_nat k <? 0)%Z with false by (symmetry; apply Z.ltb_ge; lia).
  rewrite slice_between by lia.
  destruct (Nat.le_gt_cases k (length l)).
  - rewrite Z.min_l by lia. rewrite Nat2Z.id.
    apply firstn_all2. rewrite length_skipn. lia.
  - rewrite Z.min_r by lia. rewrite Z.sub_diag. simpl.
    symmetry. apply skipn_all2. lia.
Qed.

Lemma py_slice_drop_last {A : Type} (l : list A) (k : nat) :
  (0 < k)%nat ->
  py_slice l None (Some (- Z.of_nat k)%Z) 1 = firstn (length l - k) l.
Proof.
  intros Hk.
  unfold py_slice, slice_indices, clamp_index. cbv zeta.
  change (1 <? 0)%Z with false. cbv iota.
  replace (- Z.of_nat k <? 0)%Z with true by (symmetry; apply Z.ltb_lt; lia).
  rewrite slice_between by lia.
  simpl. f_equal. lia.
Qed.

Lemma py_slice_window {A : Type} (l : list A) (a b : nat) :
  (a <= b <= length l)%nat ->
  py_slice l (Some (Z.of_nat a)) (Some (Z.of_nat b)) 1
  = firstn (b - a) (skipn a l).
Proof.
  intros H.
  unfold py_slice, slice_indices, clamp_index. cbv zeta.
  change (1 <? 0)%Z with false. cbv iota.
  replace (Z.of_nat a <? 0)%Z with false by (symmetry; apply Z.ltb_ge; lia).
  replace (Z.of_nat b <? 0)%Z with false by (symmetry; apply Z.ltb_ge; lia).
  rewrite slice_between by lia.
  rewrite !Z.min_l by lia. f_equal; [lia|]. now rewrite Nat2Z.id.
Qed.

Lemma py_slice_stride {A : Type} (d : A) (l : list A) (K : nat) :
  (0 < K)%nat ->
  py_slice l (Some (Z.of_nat K - 1)%Z) None (Z.of_nat K)
  = map (fun i => nth (i * K + K - 1) l d) (seq 0 (length l / K)).
Proof.
  intros HK.
  unfold py_slice, slice_indices, clamp_index. cbv zeta.
  replace (Z.of_nat K <? 0)%Z with false by (symmetry; apply Z.ltb_ge; lia).
  replace (Z.of_nat K - 1 <? 0)%Z with false by (symmetry; apply Z.ltb_ge; lia).
  cbv iota.
  set (len := length l).
  set (s := Z.min (Z.of_nat K - 1) (Z.of_nat len)).
  assert (Hcount : range_len s (Z.of_nat len) (Z.of_nat K) = (len / K)%nat).
  { unfold range_len, s.
    replace (0 <? Z.of_nat K)%Z with true by (symmetry; apply Z.ltb_lt; lia).
    destruct (Nat.lt_ge_cases len K).
    - rewrite Z.min_r by lia. rewrite Z.ltb_irrefl.
      symmetry. apply Nat.div_small. lia.
    - rewrite Z.min_l by lia.
      replace (Z.of_nat K - 1 <? Z.of_nat len)%Z with true
        by (symmetry; apply Z.ltb_lt; lia).
      replace (Z.of_nat len - (Z.of_nat K - 1) - 1)%Z
        with (Z.of_nat len + (-1) * Z.of_nat K)%Z by lia.
      rewrite Z.div_add by lia. rewrite <- Nat2Z.inj_div. lia. }
  assert (Hin : forall k, (k < len / K)%nat ->
                          s = (Z.of_nat K - 1)%Z /\ (k * K + K <= len)%nat).
  { intros k Hk. pose proof (Nat.Div0.mul_div_le len K) as Hle.
    assert (Hk' : (K * S k <= K * (len / K))%nat) by (apply Nat.mul_le_mono_l; lia).
    split; [unfold s|]; lia. }
  unfold py_range. rewrite Hcount.
  rewrite (flat_map_in_range d).
  - rewrite map_map. apply map_ext_in. intros k Hk. apply in_seq in Hk.
    destruct (Hin k) as [-> Hb]; [lia|]. f_equal. lia.
  - apply Forall_forall. intros i Hi. apply in_map_iff in Hi.
    destruct Hi as [k [<- Hk]]. apply in_seq in Hk.
    destruct (Hin k) as [-> Hb]; [lia|]. fold len. lia.
Qed.

Lemma length_py_slice_stride {A : Type} (l : list A) (K : nat) :
  (0 < K)%nat ->
  length (py_slice l (Some (Z.of_nat K - 1)%Z) None (Z.of_nat K))
  = (length l / K)%nat.
Proof.
  intros HK. destruct l as [|d l'].
  - simpl. rewrite Nat.Div0.div_0_l. unfold py_slice.
    destruct (slice_indices _ _ _ _) as [s e].
    induction (py_range s e (Z.of_nat K)) as [|i idx IH]; [reflexivity|].
    simpl. now destruct (Z.to_nat i).
  - rewrite (py_slice_stride d) by assumption.
    now rewrite length_map, length_seq.
Qed.

(** ** Running sums *)

Lemma fold_nadd_eq (l : list Q) (a : Q) :
  fold_left nadd l a == a + Qsum l.
Proof.
  revert a. induction l as [|x l IH]; intros a; simpl.
  - ring.
  - rewrite IH, nadd_eq. ring.
Qed.

Lemma nsum_eq (l : list Q) : nsum l == Qsum l.
Proof. unfold nsum. rewrite fold_nadd_eq. ring. Qed.

Lemma Qsum_app (l l' : list Q) : Qsum (l ++ l') == Qsum l + Qsum l'.
Proof.
  induction l as [|x l IH]; simpl; [ring|]. rewrite IH. ring.
Qed.

Lemma firstn_add_split {A : Type} (a b : nat) (l : list A) :
  firstn (a + b) l = firstn a l ++ firstn b (skipn a l).
Proof.
  rewrite <- (firstn_skipn a (firstn (a + b) l)).
  rewrite firstn_firstn, <- firstn_skipn_comm.
  now replace (Nat.min a (a + b)) with a by lia.
Qed.

Lemma Qsum_window (a b : nat) (l : list Q) :
  Qsum (firstn b (skipn a l)) == Qsum (firstn (a + b) l) - Qsum (firstn a l).
Proof. rewrite firstn_add_split, Qsum_app. ring. Qed.

Lemma length_cumsum_from (l : list Q) (acc : Q) :
  length (cumsum_from acc l) = length l.
Proof.
  revert acc. induction l as [|x l IH]; intros acc; simpl; [reflexivity|].
  now rewrite IH.
Qed.

Lemma nth_cumsum_from (l : list Q) (acc : Q) (k : nat) :
  (k < length l)%nat ->
  nth k (cumsum_from acc l) 0 == acc + Qsum (firstn (S k) l).
Proof.
  revert acc k. induction l as [|x l IH]; intros acc k Hk; simpl in Hk; [lia|].
  destruct k as [|k].
  - simpl. rewrite nadd_eq. destruct l; simpl; ring.
  - change (nth (S k) (cumsum_from acc (x :: l)) 0)
      with (nth k (cumsum_from (nadd acc x) l) 0).
    rewrite IH by lia. rewrite nadd_eq.
    change (firstn (S (S k)) (x :: l)) with (x :: firstn (S k) l).
    simpl. ring.
Qed.

Lemma nth_cumsum (l : list Q) (k : nat) :
  (k < length l)%nat -> nth k (cumsum l) 0 == Qsum (firstn (S k) l).
Proof.
  intros Hk. unfold cumsum. rewrite nth_cumsum_from by assumption. ring.
Qed.

Lemma nth_map2 {A B C : Type} (f : A -> B -> C) (l : list A) (l' : list B)
    (i : nat) (d : A) (d' : B) (d'' : C) :
  (i < length l)%nat -> (i < length l')%nat ->
  nth i (map2 f l l') d'' = f (nth i l d) (nth i l' d').
Proof.
  revert l' i. induction l as [|x l IH]; intros l' i Hl Hl'; simpl in Hl; [lia|].
  destruct l' as [|y l']; simpl in Hl'; [lia|].
  destruct i as [|i]; simpl; [reflexivity|]. apply IH; lia.
Qed.

Lemma length_map2 {A B C : Type} (f : A -> B -> C) (l : list A) (l' : list B) :
  length (map2 f l l') = Nat.min (length l) (length l').
Proof.
  revert l'. induction l as [|x l IH]; intros [|y l']; simpl; try reflexivity.
  now rewrite IH.
Qed.

(** ** Block reduction *)

Lemma length_assign_from_cumsum (B : Z) (cs : list num) :
  (0 < B)%Z ->
  length (assign_from cs B
            (map2 nsub (py_slice cs (Some B) None 1)
                       (py_slice cs None (Some (- B)%Z) 1)))
  = length cs.
Proof.
  intros HB. replace B with (Z.of_nat (Z.to_nat B)) by lia.
  set (K := Z.to_nat B). assert (HK : (0 < K)%nat) by lia.
  rewrite py_slice_from, py_slice_drop_last by assumption.
  unfold assign_from, slice_indices, clamp_index. cbv zeta.
  change (1 <? 0)%Z with false. cbv iota.
  replace (Z.of_nat K <? 0)%Z with false by (symmetry; apply Z.ltb_ge; lia).
  rewrite length_app, length_firstn, length_map2, length_skipn, length_firstn.
  lia.
Qed.

(** The running-sum shortcut gives, window by window, the sum of the
    window. *)
Lemma cumsum_blocks (B : Z) (l : list num) (g : num -> num) :
  (0 < B)%Z ->
  (forall x y : Q, x == y -> g x = g y) ->
  map g
    (py_slice
       (assign_from (cumsum l) B
          (map2 nsub (py_slice (cumsum l) (Some B) None 1)
                     (py_slice (cumsum l) None (Some (- B)%Z) 1)))
       (Some (B - 1)%Z) None B)
  = map (fun w => g (Qsum w)) (windows (Z.to_nat B) l).
Proof.
  intros HB Hg.
  pose proof (length_assign_from_cumsum B (cumsum l) HB) as Hlen.
  revert Hlen.
  replace B with (Z.of_nat (Z.to_nat B)) by lia.
  rewrite Nat2Z.id.
  set (K := Z.to_nat B). assert (HK : (0 < K)%nat) by lia.
  rewrite py_slice_from, py_slice_drop_last by assumption.
  unfold assign_from, slice_indices, clamp_index. cbv zeta.
  change (1 <? 0)%Z with false. cbv iota.
  replace (Z.of_nat K <? 0)%Z with false by (symmetry; apply Z.ltb_ge; lia).
  set (cs := cumsum l).
  assert (Hcs : length cs = length l) by apply length_cumsum_from.
  set (cs' := firstn _ cs ++ _).
  intros Hlen.
  rewrite (py_slice_stride 0) by assumption.
  unfold windows. rewrite !map_map, Hlen, Hcs.
  apply map_ext_in. intros i Hi. apply in_seq in Hi.
  pose proof (Nat.Div0.mul_div_le (length l) K) as Hle.
  assert (Hi' : (K * S i <= K * (length l / K))%nat)
    by (apply Nat.mul_le_mono_l; lia).
  assert (Hb : (i * K + K <= length l)%nat) by lia.
  apply Hg. unfold cs'.
  destruct i as [|i].
  - rewrite app_nth1 by (rewrite length_firstn; lia).
    rewrite nth_firstn.
    replace (0 * K + K - 1 <? Z.to_nat (Z.min (Z.of_nat K) (Z.of_nat (length cs))))%nat
      with true by (symmetry; apply Nat.ltb_lt; lia).
    unfold cs. rewrite nth_cumsum by lia.
    replace (S (0 * K + K - 1)) with K by lia. reflexivity.
  - rewrite app_nth2 by (rewrite length_firstn; lia).
    rewrite length_firstn.
    replace (S i * K + K - 1 -
             Nat.min (Z.to_nat (Z.min (Z.of_nat K) (Z.of_nat (length cs))))
                     (length cs))%nat
      with (i * K + K - 1)%nat by lia.
    rewrite (nth_map2 nsub _ _ _ 0 0 0)
      by (rewrite ?length_skipn, ?length_firstn; lia).
    rewrite nsub_eq, nth_skipn, nth_firstn.
    replace (i * K + K - 1 <? length cs - K)%nat
      with true by (symmetry; apply Nat.ltb_lt; lia).
    unfold cs. rewrite !nth_cumsum by lia.
    rewrite Qsum_window.
    replace (S (K + (i * K + K - 1))) with (S i * K + K)%nat by lia.
    replace (S (i * K + K - 1)) with (S i * K)%nat by lia.
    reflexivity.
Qed.

Lemma length_windows (K : nat) (l : list num) :
  Forall (fun w => length w = K) (windows K l).
Proof.
  unfold windows. apply Forall_forall. intros w Hw.
  apply in_map_iff in Hw. destruct Hw as [i [<- Hi]]. apply in_seq in Hi.
  destruct K as [|K]; [reflexivity|].
  pose proof (Nat.Div0.mul_div_le (length l) (S K)) as Hle.
  assert (Hi' : (S K * S i <= S K * (length l / S K))%nat)
    by (apply Nat.mul_le_mono_l; lia).
  rewrite length_firstn, length_skipn. lia.
Qed.

(** The reference loops compute a value of each full window. *)
Lemma slow_10hz_windows (trim_data : list num) :
  slow_10hz trim_data
  = map (fun w => nfloor (nanmean w)) (windows 3 trim_data).
Proof.
  unfold slow_10hz, windows.
  replace (Z.to_nat (Z.of_nat (length trim_data) ÷ 3))
    with (length trim_data / 3)%nat.
  2:{ rewrite Z.quot_div_nonneg by lia.
      change 3%Z with (Z.of_nat 3). rewrite <- Nat2Z.inj_div. lia. }
  rewrite <- seq_shift, !map_map.
  apply map_ext_in. intros i Hi. apply in_seq in Hi.
  pose proof (Nat.Div0.mul_div_le (length trim_data) 3) as Hle.
  replace ((Z.of_nat (S i) - 1) * 3)%Z with (Z.of_nat (i * 3)) by lia.
  replace (Z.of_nat (i * 3) + 3)%Z with (Z.of_nat (i * 3 + 3)) by lia.
  rewrite py_slice_window by lia.
  now replace (i * 3 + 3 - i * 3)%nat with 3%nat by lia.
Qed.

Lemma slow_epochs_windows (epoch : Z) (down_sample10_hz : list num) :
  (0 < epoch)%Z ->
  slow_epochs epoch down_sample10_hz
  = Ok (map (fun w => nfloor (nsum w))
            (windows (Z.to_nat (epoch * 10)) down_sample10_hz)).
Proof.
  intros He. unfold slow_epochs, windows. cbv zeta.
  set (B := (epoch * 10)%Z). set (K := Z.to_nat B).
  assert (HB : B = Z.of_nat K) by lia.
  replace (B =? 0)%Z with false by (symmetry; apply Z.eqb_neq; lia).
  rewrite Z.quot_div_nonneg by lia.
  assert (Hn : (Z.of_nat (length down_sample10_hz) / B)%Z
               = Z.of_nat (length down_sample10_hz / K)).
  { rewrite HB. now rewrite <- Nat2Z.inj_div. }
  rewrite Hn.
  replace (Z.of_nat (length down_sample10_hz / K) <? 0)%Z with false
    by (symmetry; apply Z.ltb_ge; lia).
  rewrite Nat2Z.id. f_equal. rewrite map_map.
  apply map_ext_in. intros i Hi. apply in_seq in Hi.
  pose proof (Nat.Div0.mul_div_le (length down_sample10_hz) K) as Hle.
  assert (Hi' : (K * S i <= K * (length down_sample10_hz / K))%nat)
    by (apply Nat.mul_le_mono_l; lia).
  replace (Z.of_nat i * B)%Z with (Z.of_nat (i * K)) by lia.
  replace (Z.of_nat (i * K) + B)%Z with (Z.of_nat (i * K + K)) by lia.
  rewrite py_slice_window by lia.
  now replace (i * K + K - i * K)%nat with K by lia.
Qed.

Lemma ndiv3_comp (x y : Q) : x == y -> nfloor (ndiv x 3) = nfloor (ndiv y 3).
Proof. intros H. apply nfloor_comp. rewrite !ndiv_eq, H. reflexivity. Qed.

Lemma resample_10hz_row_windows (trim_row : list num) :
  resample_10hz_row trim_row
  = map (fun w => nfloor (ndiv (Qsum w) 3)) (windows 3 trim_row).
Proof.
  unfold resample_10hz_row. cbv zeta.
  change (-3)%Z with (- (3))%Z.
  now rewrite (cumsum_blocks 3 trim_row (fun x => nfloor (ndiv x 3)))
    by (try apply ndiv3_comp; lia).
Qed.

Lemma resample_10hz_row_eq (trim_row : list num) :
  resample_10hz_row trim_row = slow_10hz trim_row.
Proof.
  rewrite resample_10hz_row_windows, slow_10hz_windows.
  apply map_ext_in. intros w Hw.
  pose proof (length_windows 3 trim_row) as Hl.
  rewrite Forall_forall in Hl. specialize (Hl w Hw).
  unfold nanmean. rewrite Hl. apply ndiv3_comp. symmetry. apply nsum_eq.
Qed.

Lemma sum_counts_row_windows (block_size : Z) (row : list num) :
  (0 < block_size)%Z ->
  sum_counts_row block_size row
  = map (fun w => nfloor (Qsum w)) (windows (Z.to_nat block_size) row).
Proof.
  intros HB. unfold sum_counts_row. cbv zeta.
  now rewrite (cumsum_blocks block_size row nfloor) by (try apply nfloor_comp; lia).
Qed.

Lemma sum_counts_row_eq (epoch : Z) (row : list num) :
  (0 < epoch)%Z ->
  slow_epochs epoch row = Ok (sum_counts_row (epoch * 10) row).
Proof.
  intros He. rewrite slow_epochs_windows, sum_counts_row_windows by lia.
  f_equal. apply map_ext. intros w. apply nfloor_comp. apply nsum_eq.
Qed.

(** ** The threshold stage *)

(** Case analysis on every comparison of the goal, innermost first. *)
Ltac split_nlt :=
  repeat (match goal with
          | |- context [nlt ?a ?b] =>
              lazymatch constr:((a, b)) with
              | context [nlt _ _] => fail
              | _ => idtac
              end;
              let H := fresh "Hc" in
              destruct (nlt a b) eqn:H;
              [apply nlt_true in H | apply nlt_false in H]
          end; cbn [andb negb]).

(** The map the standard mode computes on one sample. *)
Lemma slow_trim_std_cases (f : num) :
  (128 < Qabs f -> slow_trim_std f = 128) /\
  (Qabs f < 4 -> slow_trim_std f = 0) /\
  (4 <= Qabs f <= 128 -> slow_trim_std f = inject_Z (Qfloor (Qabs f))).
Proof.
  unfold slow_trim_std, ngt, nabs, nfloor. cbv zeta.
  split_nlt; repeat split; intros; try reflexivity; lra.
Qed.

Lemma fast_trim_std_eq (f : num) : fast_trim_std f = slow_trim_std f.
Proof.
  unfold fast_trim_std, slow_trim_std, ngt, nabs. cbv zeta.
  split_nlt; try reflexivity; lra.
Qed.

(** The map the LFE mode computes on one sample. *)
Lemma slow_trim_lfe_cases (f : num) :
  (128 < Qabs f -> slow_trim_lfe f = 128) /\
  (Qabs f < 1 -> slow_trim_lfe f = 0) /\
  (1 <= Qabs f < 4 ->
   slow_trim_lfe f = inject_Z (Qfloor (Qabs f) - 1)) /\
  (4 <= Qabs f <= 128 -> slow_trim_lfe f = inject_Z (Qfloor (Qabs f))).
Proof.
  unfold slow_trim_lfe, ngt, nabs, nfloor. cbv zeta.
  split_nlt; repeat split; intros; try reflexivity; try lra.
  apply nsub_whole.
Qed.

Lemma fast_trim_lfe_eq (f : num) : fast_trim_lfe f = slow_trim_lfe f.
Proof.
  unfold fast_trim_lfe, slow_trim_lfe, ngt, nge, nabs. cbv zeta.
  pose proof (Qabs_nonneg f) as Hpos.
  assert (Hidem : Qabs (Qabs f) == Qabs f) by (now apply Qabs_pos).
  split_nlt; try reflexivity; try lra.
  - (* below one: the floor is zero *)
    unfold nfloor. change 0 with (inject_Z 0). f_equal.
    apply Qfloor_unique; [change (inject_Z 0) with 0 | change (inject_Z (0 + 1)) with 1]; lra.
  - (* the dead band [1, 4) *)
    unfold nfloor. rewrite nsub_whole. f_equal.
    rewrite (Qfloor_comp _ (Qabs f - 1))
      by (unfold nsub; rewrite Qred_correct, Hidem; reflexivity).
    apply Qfloor_sub1.
Qed.

(** ** Bounds *)

Lemma whole_range_weaken (lo hi lo' hi' : Z) (x : num) :
  (lo' <= lo)%Z -> (hi <= hi')%Z -> whole_range lo hi x -> whole_range lo' hi' x.
Proof. intros Hl Hh [z [-> Hz]]. exists z. split; [reflexivity | lia]. Qed.

Lemma nfloor_range (lo hi : Z) (x : num) :
  inject_Z lo <= x -> x <= inject_Z hi -> whole_range lo hi (nfloor x).
Proof.
  intros Hl Hh. exists (Qfloor x). split; [reflexivity|].
  split.
  - rewrite <- (Qfloor_Z lo). now apply Qfloor_resp_le.
  - rewrite <- (Qfloor_Z hi). now apply Qfloor_resp_le.
Qed.

Lemma slow_trim_std_range (f : num) : whole_range 0 128 (slow_trim_std f).
Proof.
  destruct (slow_trim_std_cases f) as [Hmax [Hmin Hmid]].
  destruct (Qlt_le_dec 128 (Qabs f)) as [H|H].
  - rewrite Hmax by assumption. exists 128%Z. split; [reflexivity | lia].
  - destruct (Qlt_le_dec (Qabs f) 4) as [H'|H'].
    + rewrite Hmin by assumption. exists 0%Z. split; [reflexivity | lia].
    + rewrite Hmid by (split; assumption).
      apply (nfloor_range 0 128); [change (inject_Z 0) with 0 | change (inject_Z 128) with 128]; lra.
Qed.

Lemma slow_trim_lfe_range (f : num) : whole_range 0 128 (slow_trim_lfe f).
Proof.
  destruct (slow_trim_lfe_cases f) as [Hmax [Hmin [Hband Hmid]]].
  destruct (Qlt_le_dec 128 (Qabs f)) as [H|H].
  - rewrite Hmax by assumption. exists 128%Z. split; [reflexivity | lia].
  - destruct (Qlt_le_dec (Qabs f) 1) as [H1|H1].
    + rewrite Hmin by assumption. exists 0%Z. split; [reflexivity | lia].
    + destruct (Qlt_le_dec (Qabs f) 4) as [H4|H4].
      * rewrite Hband by (split; assumption).
        exists (Qfloor (Qabs f) - 1)%Z. split; [reflexivity|].
        destruct (nfloor_range 1 4 (Qabs f)) as [z [Ez Hz]];
          [change (inject_Z 1) with 1; lra | change (inject_Z 4) with 4; lra |].
        unfold nfloor in Ez. apply (f_equal Qfloor) in Ez.
        rewrite !Qfloor_Z in Ez. lia.
      * rewrite Hmid by (split; assumption).
        apply (nfloor_range 0 128); [change (inject_Z 0) with 0 | change (inject_Z 128) with 128]; lra.
Qed.

Lemma map_seq_nth {A B : Type} (f : A -> B) (d : A) (l : list A) :
  map (fun i => f (nth i l d)) (seq 0 (length l)) = map f l.
Proof.
  induction l as [|x l IH]; simpl; [reflexivity|].
  f_equal. rewrite <- seq_shift, map_map. exact IH.
Qed.

Lemma slow_trim_map (lfe_select : bool) (bpf_data : list num) :
  slow_trim lfe_select bpf_data
  = map (if lfe_select then slow_trim_lfe else slow_trim_std) bpf_data.
Proof.
  unfold slow_trim. destruct lfe_select; apply map_seq_nth.
Qed.

Lemma Forall_firstn {A : Type} (P : A -> Prop) (n : nat) (l : list A) :
  Forall P l -> Forall P (firstn n l).
Proof.
  intros H. revert n. induction H; intros [|n]; simpl; constructor; auto.
Qed.

Lemma Forall_skipn {A : Type} (P : A -> Prop) (n : nat) (l : list A) :
  Forall P l -> Forall P (skipn n l).
Proof.
  intros H. revert n. induction H; intros [|n]; simpl; auto.
Qed.

Lemma windows_Forall (P : num -> Prop) (K : nat) (l : list num) :
  Forall P l -> Forall (Forall P) (windows K l).
Proof.
  intros H. unfold windows. apply Forall_map, Forall_forall. intros i _.
  now apply Forall_firstn, Forall_skipn.
Qed.

Lemma Qsum_range (hi : Z) (w : list num) :
  Forall (whole_range 0 hi) w ->
  0 <= Qsum w /\ Qsum w <= inject_Z (hi * Z.of_nat (length w)).
Proof.
  induction 1 as [|x w [z [-> Hz]] _ [IHl IHh]].
  - simpl. rewrite Z.mul_0_r. change (inject_Z 0) with 0. lra.
  - change (Qsum (inject_Z z :: w)) with (inject_Z z + Qsum w).
    replace (hi * Z.of_nat (length (inject_Z z :: w)))%Z
      with (hi + hi * Z.of_nat (length w))%Z by (simpl length; lia).
    rewrite inject_Z_plus.
    assert (H0 : inject_Z 0 <= inject_Z z) by (rewrite <- Zle_Qle; lia).
    assert (H1 : inject_Z z <= inject_Z hi) by (rewrite <- Zle_Qle; lia).
    change (inject_Z 0) with 0 in H0. lra.
Qed.

(** The two reductions keep the bounds. *)
Lemma slow_10hz_range (trim_data : list num) :
  Forall (whole_range 0 128) trim_data ->
  Forall (whole_range 0 128) (slow_10hz trim_data).
Proof.
  intros H. rewrite slow_10hz_windows. apply Forall_map.
  pose proof (length_windows 3 trim_data) as Hl.
  pose proof (windows_Forall _ 3 _ H) as Hw.
  rewrite Forall_forall in *. intros w Hin.
  specialize (Hl w Hin). specialize (Hw w Hin).
  destruct (Qsum_range _ _ Hw) as [Hlo Hhi]. rewrite Hl in Hhi.
  change (inject_Z (128 * Z.of_nat 3)) with 384 in Hhi.
  unfold nanmean. rewrite Hl. change (inject_Z (Z.of_nat 3)) with 3.
  apply nfloor_range; rewrite ndiv_eq, nsum_eq;
    [change (inject_Z 0) with 0 | change (inject_Z 128) with 128].
  - apply Qle_shift_div_l; lra.
  - apply Qle_shift_div_r; lra.
Qed.

Lemma slow_epochs_range (epoch : Z) (down_sample10_hz epoch_counts : list num) :
  (0 < epoch)%Z ->
  Forall (whole_range 0 128) down_sample10_hz ->
  slow_epochs epoch down_sample10_hz = Ok epoch_counts ->
  Forall (whole_range 0 (1280 * epoch)) epoch_counts.
Proof.
  intros He H Hok. rewrite slow_epochs_windows in Hok by assumption.
  injection Hok as <-. apply Forall_map.
  pose proof (length_windows (Z.to_nat (epoch * 10)) down_sample10_hz) as Hl.
  pose proof (windows_Forall _ (Z.to_nat (epoch * 10)) _ H) as Hw.
  rewrite Forall_forall in *. intros w Hin.
  specialize (Hl w Hin). specialize (Hw w Hin).
  destruct (Qsum_range _ _ Hw) as [Hlo Hhi]. rewrite Hl in Hhi.
  replace (128 * Z.of_nat (Z.to_nat (epoch * 10)))%Z with (1280 * epoch)%Z in Hhi by lia.
  apply nfloor_range; rewrite nsum_eq; [change (inject_Z 0) with 0|]; assumption.
Qed.

Lemma to_int_whole (z : Z) : to_int (inject_Z z) = z.
Proof. unfold to_int. simpl. apply Z.quot_1_r. Qed.

Lemma nth_Forall {A : Type} (P : A -> Prop) (l : list A) (i : nat) (d : A) :
  Forall P l -> P d -> P (nth i l d).
Proof.
  intros H Hd. revert i. induction H; intros [|i]; simpl; auto.
Qed.

Lemma Forall_map2 {A B C : Type} (P : A -> Prop) (Q : B -> Prop)
    (R : C -> Prop) (f : A -> B -> C) (l : list A) (l' : list B) :
  (forall x y, P x -> Q y -> R (f x y)) ->
  Forall P l -> Forall Q l' -> Forall R (map2 f l l').
Proof.
  intros Hf H. revert l'. induction H; intros l' H'; simpl; [constructor|].
  destruct H'; constructor; auto.
Qed.

Lemma transpose_Forall {A : Type} (P : A -> Prop) (d : A) (a : ndarray A) :
  P d -> Forall (Forall P) (data a) ->
  Forall (Forall P) (data (transpose d a)).
Proof.
  intros Hd H. simpl. apply Forall_map, Forall_forall. intros j _.
  apply Forall_map. rewrite Forall_forall in *. intros r Hr.
  apply nth_Forall; auto.
Qed.

Lemma whole_range_zero (hi : Z) : (0 <= hi)%Z -> whole_range 0 hi 0.
Proof. intros H. exists 0%Z. split; [reflexivity | lia]. Qed.

Lemma trim_rows_range (lfe_select : bool) (bpf_data : ndarray num) :
  Forall (Forall (whole_range 0 128)) (data (_trim_data bpf_data lfe_select)).
Proof.
  unfold _trim_data. destruct lfe_select; simpl;
    apply Forall_map, Forall_forall; intros r _;
    apply Forall_map, Forall_forall; intros f _.
  - rewrite fast_trim_lfe_eq. apply slow_trim_lfe_range.
  - rewrite fast_trim_std_eq. apply slow_trim_std_range.
Qed.

Lemma slow_trim_range (lfe_select : bool) (bpf_data : list num) :
  Forall (whole_range 0 128) (slow_trim lfe_select bpf_data).
Proof.
  rewrite slow_trim_map. apply Forall_map, Forall_forall. intros f _.
  destruct lfe_select; [apply slow_trim_lfe_range | apply slow_trim_std_range].
Qed.

Lemma extract_slow_range (raw : ndarray num) (frequency : Z)
    (lfe_select : bool) (epoch : Z) (counts : ndarray num) :
  (0 < epoch)%Z ->
  _extract_slow raw frequency lfe_select epoch = Ok counts ->
  Forall (Forall (whole_range 0 (1280 * epoch))) (data counts).
Proof.
  intros He. unfold _extract_slow.
  destruct (_factors frequency) as [upsample_factor downsample_factor].
  destruct (data (transpose 0 raw)) as [|raw0 rest]; [discriminate|].
  destruct (slow_bpf _) as [bpf_data|]; [|discriminate]. unfold bind.
  destruct (slow_epochs _ _) as [epoch_counts|] eqn:Hep; [|discriminate].
  intros [= <-]. simpl. constructor; [|constructor].
  eapply slow_epochs_range; [exact He | | exact Hep].
  apply slow_10hz_range, slow_trim_range.
Qed.

Lemma extract_range (raw : ndarray num) (frequency : Z) (lfe_select : bool)
    (epoch_seconds : Z) (counts : ndarray num) :
  (0 < epoch_seconds)%Z ->
  _extract raw frequency lfe_select epoch_seconds = Ok counts ->
  Forall (Forall (whole_range 0 (1280 * epoch_seconds))) (data counts).
Proof.
  intros He. unfold _extract, bind.
  destruct (_resample raw frequency) as [downsample_data|]; [|discriminate].
  destruct (_bpf_filter downsample_data) as [bpf_data|]; [|discriminate].
  unfold _sum_counts.
  replace (epoch_seconds * 10 =? 0)%Z with false
    by (symmetry; apply Z.eqb_neq; lia).
  intros [= <-]. simpl.
  apply Forall_map, Forall_map.
  pose proof (trim_rows_range lfe_select bpf_data) as Ht.
  rewrite Forall_forall in *. intros r Hr.
  eapply slow_epochs_range; [exact He | | apply sum_counts_row_eq; exact He].
  rewrite resample_10hz_row_eq. apply slow_10hz_range. auto.
Qed.

Lemma concatenate1_Forall (P : num -> Prop) (x y z c : ndarray num) :
  Forall (Forall P) (data x) -> Forall (Forall P) (data y) ->
  Forall (Forall P) (data z) ->
  concatenate1 x y z = Ok c -> Forall (Forall P) (data c).
Proof.
  intros Hx Hy Hz. unfold concatenate1.
  destruct (_ && _)%bool; [|discriminate]. intros [= <-]. simpl.
  apply Forall_map2 with (P := Forall P) (Q := Forall P); auto.
  - intros; apply Forall_app; auto.
  - apply Forall_map2 with (P := Forall P) (Q := Forall P); auto.
    intros; apply Forall_app; auto.
Qed.

Lemma to_int_range (lo hi : Z) (a : ndarray num) :
  Forall (Forall (whole_range lo hi)) (data a) ->
  Forall (Forall (fun c => (lo <= c <= hi)%Z)) (data (nd_map to_int a)).
Proof.
  intros H. simpl. apply Forall_map. rewrite Forall_forall in *.
  intros r Hr. apply Forall_map. specialize (H r Hr).
  rewrite Forall_forall in *. intros x Hx.
  destruct (H x Hx) as [z [-> Hz]]. now rewrite to_int_whole.
Qed.

(** C10.  Every entry of a count matrix returned by [get_counts], in either
    mode, is a whole number between 0 and [1280 * epoch]: a trimmed sample
    lies in [0, 128], so does the floored mean of three of them, and an epoch
    sums [10 * epoch] of those. *)
Theorem get_counts_range (raw : ndarray num) (freq epoch : Z) (fast : bool)
    (counts : ndarray Z) :
  (0 < epoch)%Z ->
  get_counts raw freq epoch fast = Ok counts ->
  Forall (Forall (fun c => (0 <= c <= 1280 * epoch)%Z)) (data counts).
Proof.
  intros He. unfold get_counts.
  destruct (supported freq); simpl negb; cbv iota; [|discriminate].
  assert (H0 : whole_range 0 (1280 * epoch) 0) by (apply whole_range_zero; lia).
  destruct fast; unfold bind.
  - destruct (_extract raw freq false epoch) as [c|] eqn:Hc; [|discriminate].
    intros [= <-]. apply to_int_range, transpose_Forall; [exact H0|].
    eapply extract_range; eauto.
  - destruct (column raw 0) as [x_raw|]; [|discriminate].
    destruct (column raw 1) as [y_raw|]; [|discriminate].
    destruct (column raw 2) as [z_raw|]; [|discriminate].
    destruct (_extract_slow x_raw freq false epoch) as [cx|] eqn:Hx; [|discriminate].
    destruct (_extract_slow y_raw freq false epoch) as [cy|] eqn:Hy; [|discriminate].
    destruct (_extract_slow z_raw freq false epoch) as [cz|] eqn:Hz; [|discriminate].
    destruct (concatenate1 _ _ _) as [c|] eqn:Hc; [|discriminate].
    intros [= <-]. apply to_int_range.
    eapply concatenate1_Forall; [| | | exact Hc];
      apply transpose_Forall; try exact H0;
      eapply extract_slow_range; eauto.
Qed.

(** ** Rate conversion at 30 Hz *)

Lemma rint_nearest (x : Q) : Qabs (x - inject_Z (rint x)) <= 1 # 2.
Proof.
  unfold rint. pose proof (Qfloor_le x) as Hl. pose proof (Qlt_floor x) as Hu.
  rewrite inject_Z_plus in Hu. change (inject_Z 1) with 1 in Hu.
  apply Qabs_Qle_condition.
  destruct (Qcompare_spec (x - inject_Z (Qfloor x)) (1 # 2)) as [H|H|H].
  - destruct (Z.even (Qfloor x)).
    + lra.
    + rewrite inject_Z_plus. change (inject_Z 1) with 1. lra.
  - lra.
  - rewrite inject_Z_plus. change (inject_Z 1) with 1. lra.
Qed.

Lemma round3_nearest (x : num) :
  exists k : Z, round3 x == inject_Z k / 1000 /\
                Qabs (x - inject_Z k / 1000) <= 1 # 2000.
Proof.
  exists (rint (nmul x 1000)). split.
  - unfold round3, nround. apply ndiv_eq.
  - pose proof (rint_nearest (nmul x 1000)) as H.
    apply Qabs_Qle_condition in H. apply Qabs_Qle_condition.
    rewrite nmul_eq in H at 1 3.
    set (k := inject_Z (rint (nmul x 1000))) in *.
    assert (Hk : k / 1000 == k * (1 # 1000)) by (unfold Qdiv; reflexivity).
    rewrite Hk. lra.
Qed.

(** C5.  At 30 Hz the rate-conversion stage is the identity followed by
    rounding to three decimals: the factors are 1 and 1, the vectorised
    [_resample] returns each channel of the input with every value rounded,
    and so does the same stage of the reference path; a rounded value is a
    multiple of 1/1000 at most 1/2000 away from the value. *)
Theorem resample_30hz (raw : ndarray num) (raw0 lpf_upsample_data : list num)
    (x : num) :
  _factors 30 = (1, 1)%Z /\
  _resample raw 30 = Ok (nd_map round3 (transpose 0 raw)) /\
  slow_downsample 30 1 1 raw0 lpf_upsample_data = map round3 raw0 /\
  slow_lpf 30 1 raw0 (slow_upsample 1 raw0) = slow_upsample 1 raw0 /\
  exists k : Z, round3 x == inject_Z k / 1000 /\
                Qabs (x - inject_Z k / 1000) <= 1 # 2000.
Proof.
  split; [reflexivity|]. split; [reflexivity|]. split; [reflexivity|].
  split; [reflexivity|]. apply round3_nearest.
Qed.

(** C6.  Standard mode: a sample [f] is mapped to 128 when [|f| > 128], to 0
    when [|f| < 4] and to the floor of [|f|] otherwise, by the loop of the
    reference path and by the masked assignments of [_trim_data] alike. *)
Theorem trim_standard (bpf_data : ndarray num) (row : list num) (f : num) :
  data (_trim_data bpf_data false) = map (slow_trim false) (data bpf_data) /\
  slow_trim false row = map slow_trim_std row /\
  fast_trim_std f = slow_trim_std f /\
  (128 < Qabs f -> slow_trim_std f = 128) /\
  (Qabs f < 4 -> slow_trim_std f = 0) /\
  (4 <= Qabs f <= 128 -> slow_trim_std f = inject_Z (Qfloor (Qabs f))).
Proof.
  split; [|split; [apply (slow_trim_map false) | split;
                   [apply fast_trim_std_eq | apply slow_trim_std_cases]]].
  simpl. apply map_ext. intros r. rewrite (slow_trim_map false).
  apply map_ext. apply fast_trim_std_eq.
Qed.

(** C7.  LFE mode: a sample [f] is mapped to 128 when [|f| > 128], to 0 when
    [|f| < 1], to the floor of [|f|] less one when [1 <= |f| < 4] and to the
    floor of [|f|] otherwise, by the loop of the reference path and by the
    masked assignments of [_trim_data] alike. *)
Theorem trim_lfe (bpf_data : ndarray num) (row : list num) (f : num) :
  data (_trim_data bpf_data true) = map (slow_trim true) (data bpf_data) /\
  slow_trim true row = map slow_trim_lfe row /\
  fast_trim_lfe f = slow_trim_lfe f /\
  (128 < Qabs f -> slow_trim_lfe f = 128) /\
  (Qabs f < 1 -> slow_trim_lfe f = 0) /\
  (1 <= Qabs f < 4 -> slow_trim_lfe f = inject_Z (Qfloor (Qabs f) - 1)) /\
  (4 <= Qabs f <= 128 -> slow_trim_lfe f = inject_Z (Qfloor (Qabs f))).
Proof.
  split; [|split; [apply (slow_trim_map true) | split;
                   [apply fast_trim_lfe_eq | apply slow_trim_lfe_cases]]].
  simpl. apply map_ext. intros r. rewrite (slow_trim_map true).
  apply map_ext. apply fast_trim_lfe_eq.
Qed.

(** C8.  The running-sum reductions of the vectorised path give, for each
    full window, the floored value the reference loops compute from the
    window itself: the floor of a third of the sum for windows of three, the
    floor of the sum for windows of any block size [K >= 1], among them
    [epoch * 10].  The windows are the consecutive full blocks; what remains
    after the last full block is dropped. *)
Theorem block_reduction (trim_data : ndarray num) (row : list num)
    (K epoch : Z) :
  (0 < K)%Z -> (0 < epoch)%Z ->
  data (_resample_10hz trim_data) = map slow_10hz (data trim_data) /\
  resample_10hz_row row = slow_10hz row /\
  slow_10hz row
  = map (fun w => inject_Z (Qfloor (Qsum w / 3))) (windows 3 row) /\
  sum_counts_row K row
  = map (fun w => inject_Z (Qfloor (Qsum w))) (windows (Z.to_nat K) row) /\
  slow_epochs epoch row = Ok (sum_counts_row (epoch * 10) row) /\
  length (windows (Z.to_nat K) row) = (length row / Z.to_nat K)%nat /\
  Forall (fun w => length w = Z.to_nat K) (windows (Z.to_nat K) row).
Proof.
  intros HK He. repeat split.
  - simpl. apply map_ext. apply resample_10hz_row_eq.
  - apply resample_10hz_row_eq.
  - rewrite <- resample_10hz_row_eq, resample_10hz_row_windows.
    apply map_ext. intros w. apply nfloor_comp. apply ndiv_eq.
  - now apply sum_counts_row_windows.
  - now apply sum_counts_row_eq.
  - unfold windows. now rewrite length_map, length_seq.
  - apply length_windows.
Qed.

Lemma block_reduction_witness :
  (0 < 2)%Z /\ (0 < 1)%Z /\
  resample_10hz_row [5; 7; 9; 1; 1; 2; 8] = slow_10hz [5; 7; 9; 1; 1; 2; 8] /\
  sum_counts_row 2 [5; 7; 9; 1; 1; 2; 8]
  = map (fun w => inject_Z (Qfloor (Qsum w))) (windows 2 [5; 7; 9; 1; 1; 2; 8]).
Proof.
  split; [lia|]. split; [lia|].
  destruct (block_reduction (zeros 0 0) [5; 7; 9; 1; 1; 2; 8] 2 1)
    as [_ [H1 [_ [H2 _]]]]; [lia | lia |].
  split; [exact H1 | exact H2].
Defined.

(** ** The entry point *)

Lemma supported_cases (freq : Z) :
  supported freq = true ->
  (freq = 30 \/ freq = 40 \/ freq = 50 \/ freq = 60 \/
   freq = 70 \/ freq = 80 \/ freq = 90 \/ freq = 100)%Z.
Proof.
  unfold supported. rewrite !andb_true_iff.
  rewrite Z.leb_le, Z.ltb_lt, Z.eqb_eq. intros [[Hlo Hhi] Hmod].
  assert (Hq : (freq - 30 = 10 * ((freq - 30) / 10))%Z).
  { rewrite (Z.div_mod (freq - 30) 10) at 1 by lia. lia. }
  assert (Hr : (0 <= (freq - 30) / 10 <= 7)%Z).
  { split; [apply Z.div_pos; lia | apply Z.div_le_upper_bound; lia]. }
  lia.
Qed.

(** C1.  On 59 samples of rest at 60 Hz with an epoch of one second the
    vectorised path returns one row of counts and the reference path
    returns none: the strided slice of [_resample] keeps 30 samples, the loop
    of [_extract_slow] 29. *)
Theorem get_counts_modes_differ :
  get_counts rest_59 60 1 true = Ok (Nd 1 3 [[0; 0; 0]%Z]) /\
  get_counts rest_59 60 1 false = Ok (Nd 0 3 []) /\
  (r <- _resample rest_59 60 ;; Ok (shape1 r)) = Ok 30%nat /\
  length (slow_downsample 60 1 2 (repeat 0 59) (repeat 0 59)) = 29%nat.
Proof. repeat split; vm_compute; reflexivity. Qed.

(** C2.  An empty series is refused: for every supported frequency, every
    epoch length and both modes the entry point raises an index error, where
    the filter reads the first sample. *)
Theorem get_counts_empty (freq epoch : Z) (fast : bool) :
  supported freq = true ->
  get_counts empty_raw freq epoch fast = Raise IndexError.
Proof.
  intros H. apply supported_cases in H.
  destruct fast;
    destruct H as [->|[->|[->|[->|[->|[->|[->| ->]]]]]]]; reflexivity.
Qed.

Lemma get_counts_empty_witness :
  supported 50 = true /\ get_counts empty_raw 50 1 true = Raise IndexError.
Proof.
  split; [reflexivity | apply (get_counts_empty 50 1 true); reflexivity].
Defined.

Lemma get_counts_empty_raises :
  get_counts empty_raw 30 1 true = Raise IndexError /\
  get_counts empty_raw 30 1 false = Raise IndexError.
Proof. split; reflexivity. Qed.

Lemma resample_shape0 (raw downsample_data : ndarray num) (frequency : Z) :
  _resample raw frequency = Ok downsample_data ->
  shape0 downsample_data = shape1 raw.
Proof.
  unfold _resample.
  destruct (_factors frequency) as [upsample_factor downsample_factor].
  cbv zeta. unfold bind.
  destruct (no_lpf frequency).
  - destruct (frequency =? 30)%Z; intros [= <-]; reflexivity.
  - unfold fast_lpf. cbv zeta.
    destruct (map _ _) as [|r0 rest]; [discriminate|].
    destruct (frequency =? 30)%Z; intros [= <-]; reflexivity.
Qed.

Lemma bpf_filter_shape0 (downsample_data bpf_data : ndarray num) :
  _bpf_filter downsample_data = Ok bpf_data ->
  shape0 bpf_data = shape0 downsample_data.
Proof.
  unfold _bpf_filter. cbv zeta.
  destruct (shape1 downsample_data =? 0)%nat; [discriminate|].
  intros [= <-]. reflexivity.
Qed.

Lemma extract_shape0 (raw counts : ndarray num) (frequency : Z)
    (lfe_select : bool) (epoch_seconds : Z) :
  _extract raw frequency lfe_select epoch_seconds = Ok counts ->
  shape0 counts = shape1 raw.
Proof.
  unfold _extract, bind.
  destruct (_resample raw frequency) as [downsample_data|] eqn:Hr; [|discriminate].
  destruct (_bpf_filter downsample_data) as [bpf_data|] eqn:Hb; [|discriminate].
  unfold _sum_counts. destruct (_ =? 0)%Z; [discriminate|].
  intros [= <-]. simpl.
  rewrite <- (resample_shape0 _ _ _ Hr), <- (bpf_filter_shape0 _ _ Hb).
  now destruct lfe_select.
Qed.

Lemma column_first3 (raw : ndarray num) (j : nat) :
  (j < 3)%nat -> (3 <= shape1 raw)%nat ->
  column (first3 raw) j = column raw j.
Proof.
  intros Hj Hc. unfold column, first3. cbn [shape0 shape1 data].
  replace (j <? 3)%nat with true by (symmetry; apply Nat.ltb_lt; lia).
  replace (j <? shape1 raw)%nat with true by (symmetry; apply Nat.ltb_lt; lia).
  rewrite map_map. do 2 f_equal. apply map_ext. intros r. cbv beta.
  rewrite nth_firstn.
  now replace (j <? 3)%nat with true by (symmetry; apply Nat.ltb_lt; lia).
Qed.

(** C3 (the claim fails here).  On a recording where the two thresholds give
    different counts (3 under LFE, 2 under the standard threshold) the entry
    point returns the standard counts in both modes; it has no argument that
    would select the other. *)
Lemma get_counts_step_standard :
  _extract step_raw 30 true 1 = Ok (Nd 3 1 [[3]; [0]; [0]]) /\
  _extract step_raw 30 false 1 = Ok (Nd 3 1 [[2]; [0]; [0]]) /\
  get_counts step_raw 30 1 true = Ok (Nd 1 3 [[2; 0; 0]%Z]) /\
  get_counts step_raw 30 1 false = Ok (Nd 1 3 [[2; 0; 0]%Z]).
Proof. repeat split; vm_compute; reflexivity. Qed.

(** C3, amended.  [get_counts] has no LFE argument: whatever it returns is
    assembled from the internal extraction run with [lfe_select = False],
    in both modes.  The flag exists on [_extract] and [_extract_slow] only,
    and there it matters: on some recording the two values give different
    counts. *)
Theorem get_counts_standard_trimming (raw : ndarray num) (freq epoch : Z)
    (fast : bool) (counts : ndarray Z) :
  get_counts raw freq epoch fast = Ok counts ->
  (if fast
   then exists c, _extract raw freq false epoch = Ok c /\
                  counts = nd_map to_int (transpose 0 c)
   else exists x y z cx cy cz c,
          column raw 0 = Ok x /\ column raw 1 = Ok y /\ column raw 2 = Ok z /\
          _extract_slow x freq false epoch = Ok cx /\
          _extract_slow y freq false epoch = Ok cy /\
          _extract_slow z freq false epoch = Ok cz /\
          concatenate1 (transpose 0 cx) (transpose 0 cy) (transpose 0 cz)
          = Ok c /\
          counts = nd_map to_int c) /\
  (exists r, _extract r 30 true 1 <> _extract r 30 false 1) /\
  (exists r, _extract_slow r 30 true 1 <> _extract_slow r 30 false 1).
Proof.
  intros H. split; [|split].
  - unfold get_counts in H.
    destruct (supported freq); simpl negb in H; cbv iota in H; [|discriminate].
    destruct fast; unfold bind in H.
    + destruct (_extract raw freq false epoch) as [c|]; [|discriminate].
      exists c. injection H as <-. split; reflexivity.
    + destruct (column raw 0) as [x|]; [|discriminate].
      destruct (column raw 1) as [y|]; [|discriminate].
      destruct (column raw 2) as [z|]; [|discriminate].
      destruct (_extract_slow x freq false epoch) as [cx|] eqn:Hx; [|discriminate].
      destruct (_extract_slow y freq false epoch) as [cy|] eqn:Hy; [|discriminate].
      destruct (_extract_slow z freq false epoch) as [cz|] eqn:Hz; [|discriminate].
      destruct (concatenate1 _ _ _) as [c|] eqn:Hc; [|discriminate].
      exists x, y, z, cx, cy, cz, c. injection H as <-.
      repeat split; reflexivity || assumption.
  - exists step_raw. vm_compute. discriminate.
  - exists (Nd 30 1 (repeat [0] 27 ++ repeat [2] 3)). vm_compute. discriminate.
Qed.

Lemma get_counts_standard_trimming_witness :
  get_counts step_raw 30 1 true = Ok (Nd 1 3 [[2; 0; 0]%Z]) /\
  exists c, _extract step_raw 30 false 1 = Ok c /\
            Nd 1 3 [[2; 0; 0]%Z] = nd_map to_int (transpose 0 c).
Proof.
  assert (H : get_counts step_raw 30 1 true = Ok (Nd 1 3 [[2; 0; 0]%Z]))
    by (vm_compute; reflexivity).
  split; [exact H|].
  exact (proj1 (get_counts_standard_trimming step_raw 30 1 true _ H)).
Defined.

(** C4 (the claim fails here).  A recording of four columns and one of two
    are converted without complaint by the vectorised path, and the reference
    path converts the four-column one. *)
Lemma get_counts_other_shapes :
  get_counts rest_4_columns 30 1 true = Ok (Nd 1 4 [[0; 0; 0; 0]%Z]) /\
  get_counts rest_2_columns 30 1 true = Ok (Nd 1 2 [[0; 0]%Z]) /\
  get_counts rest_4_columns 30 1 false = Ok (Nd 1 3 [[0; 0; 0]%Z]).
Proof. repeat split; vm_compute; reflexivity. Qed.

(** C4, amended.  The entry point does not check the shape of its input.
    The reference path selects columns 0, 1 and 2: with fewer than three
    columns the selection raises an index error before any stage runs, and
    columns beyond the third are ignored.  The vectorised path converts
    every column it is given: what it returns has the column count of the
    input. *)
Theorem get_counts_columns (raw : ndarray num) (freq epoch : Z) :
  supported freq = true ->
  ((shape1 raw < 3)%nat -> get_counts raw freq epoch false = Raise IndexError) /\
  ((3 <= shape1 raw)%nat ->
   get_counts raw freq epoch false = get_counts (first3 raw) freq epoch false) /\
  (forall counts, get_counts raw freq epoch true = Ok counts ->
                  shape1 counts = shape1 raw).
Proof.
  intros Hs. unfold get_counts. rewrite Hs. simpl negb. cbv iota.
  split; [|split].
  - intros Hc. unfold column.
    destruct (shape1 raw) as [|[|[|n]]]; try lia; reflexivity.
  - intros Hc. now rewrite !column_first3 by lia.
  - intros counts. unfold bind.
    destruct (_extract raw freq false epoch) as [c|] eqn:Hx; [|discriminate].
    intros [= <-]. simpl. eapply extract_shape0; eauto.
Qed.

Lemma get_counts_columns_witness :
  supported 30 = true /\
  get_counts rest_2_columns 30 1 false = Raise IndexError /\
  shape1 (nd_map to_int (Nd 1 4 [[0; 0; 0; 0]])) = shape1 rest_4_columns.
Proof.
  split; [reflexivity|].
  destruct (get_counts_columns rest_2_columns 30 1 eq_refl) as [H2 _].
  destruct (get_counts_columns rest_4_columns 30 1 eq_refl) as [_ [_ H4]].
  split.
  - apply H2. simpl. lia.
  - apply H4. vm_compute. reflexivity.
Defined.

Lemma get_counts_range_witness :
  (0 < 1)%Z /\
  get_counts step_raw 30 1 false = Ok (Nd 1 3 [[2; 0; 0]%Z]) /\
  Forall (Forall (fun c => (0 <= c <= 1280 * 1)%Z)) [[2; 0; 0]%Z].
Proof.
  assert (H : get_counts step_raw 30 1 false = Ok (Nd 1 3 [[2; 0; 0]%Z]))
    by (vm_compute; reflexivity).
  split; [lia|]. split; [exact H|].
  exact (get_counts_range step_raw 30 1 false _ ltac:(lia) H).
Defined.
